(** * MaskedView

    A shallow embedding of [src/js/MaskedView.js]: the React component that
    renders its children through the alpha mask given by the [maskElement]
    prop, natively when the platform offers [RNCMaskedView] and through an
    SVG composition otherwise.

    JavaScript objects are finite maps from property names to values, JSX
    nodes are elements with a component type, a property map and a list of
    child slots, and the two effects of [render] (the write to
    [this._hasWarnedInvalidRenderMask] and the call of [console.error]) are
    threaded through a small state monad. *)

From stdpp Require Import gmap strings list fin_maps.
From Stdlib Require Import ZArith.

Local Open Scope Z_scope.

(** ** JavaScript values and React elements *)

(** The component types the module imports ([View], [Svg], [Mask],
    [ForeignObject]), the host components obtained from
    [requireNativeComponent], and whatever other component a caller's
    elements are made of. *)
Inductive component :=
| View
| Svg
| Mask
| ForeignObject
| NativeComponent (name : string)
| UserComponent (name : string).

#[local] Unset Elimination Schemes.
Inductive value :=
| VUndefined
| VNull
| VBool (b : bool)
| VNum (n : Z)
| VStr (s : string)
| VArr (items : list value)
| VObj (fields : gmap string value)
| VElem (e : element)
with element :=
| Elem (type : component) (props : gmap string value) (children : list value).
#[local] Set Elimination Schemes.

Definition el_type (e : element) : component :=
  let 'Elem t _ _ := e in t.
Definition el_props (e : element) : gmap string value :=
  let 'Elem _ p _ := e in p.
Definition el_children (e : element) : list value :=
  let 'Elem _ _ c := e in c.

(** Property read [o.k]: [undefined] when the object has no such property. *)
Definition get (o : gmap string value) (k : string) : value :=
  default VUndefined (o !! k).

(** An object literal [{ k1: v1, k2: v2, ... }]. *)
Definition obj (l : list (string * value)) : gmap string value :=
  list_to_map l.

(** A JSX node [<type {...attrs}>{c1}{c2}...</type>]. *)
Definition jsx (type : component) (attrs : gmap string value)
    (children : list value) : element :=
  Elem type attrs children.

(** What the module takes from [react] and [react-native]. *)
Module React.
(** [React.isValidElement]: true exactly of the objects that are elements;
    [undefined], [null], primitives, arrays and plain objects are not. *)
Definition isValidElement (v : value) : bool :=
  match v with
  | VElem _ => true
  | _ => false
  end.
End React.

Module StyleSheet.
(** [StyleSheet.absoluteFill]: position absolute with all four offsets 0. *)
Definition absoluteFill : value :=
  VObj (obj [("position", VStr "absolute"); ("left", VNum 0);
             ("right", VNum 0); ("top", VNum 0); ("bottom", VNum 0)]).
End StyleSheet.

(** ** Instance state and effects *)

Record instance := Instance {
  props : gmap string value;
  _hasWarnedInvalidRenderMask : bool
}.

(** The state a render call runs in: the instance it is called on and the
    lines written to the error console so far. *)
Record state := State {
  this : instance;
  console : list string
}.

Definition M (A : Type) : Type := state → A * state.

#[local] Instance M_ret : MRet M := λ A a s, (a, s).
#[local] Instance M_bind : MBind M := λ A B f m s,
  let '(a, s') := m s in f a s'.

Definition read_props : M (gmap string value) :=
  λ s, (props (this s), s).
Definition read_hasWarned : M bool :=
  λ s, (_hasWarnedInvalidRenderMask (this s), s).
Definition write_hasWarned (b : bool) : M unit :=
  λ s, (tt, State (Instance (props (this s)) b) (console s)).
Definition console_error (msg : string) : M unit :=
  λ s, (tt, State (this s) (console s ++ [msg])).
Definition when (b : bool) (m : M unit) : M unit :=
  if b then m else mret tt.

(** ** Observations on output trees *)

(** A style entry of a node whose [style] prop is a plain style object. *)
Definition style_attr (e : element) (k : string) : option value :=
  match el_props e !! "style" with
  | Some (VObj o) => o !! k
  | _ => None
  end.

(** A node that takes no pointer or touch events. *)
Definition non_interactive (e : element) : Prop :=
  el_props e !! "pointerEvents" = Some (VStr "none").

(** A node laid out absolutely over the whole box of its parent. *)
Definition covers_container (e : element) : Prop :=
  style_attr e "position" = Some (VStr "absolute") ∧
  style_attr e "left" = Some (VNum 0) ∧
  style_attr e "right" = Some (VNum 0) ∧
  style_attr e "top" = Some (VNum 0) ∧
  style_attr e "bottom" = Some (VNum 0).

(** The SVG reference [url(#id)] to the definition with that [id]. *)
Definition url_ref (id : string) : string := "url(#" +:+ id +:+ ")".

(** All element nodes of a tree in document order. A child slot may hold an
    element, an array of children, or something that renders to nothing. *)
Fixpoint nodes (v : value) : list element :=
  match v with
  | VElem e => nodes_of e
  | VArr l =>
      (fix go (l : list value) : list element :=
         match l with
         | [] => []
         | x :: r => nodes x ++ go r
         end) l
  | _ => []
  end
with nodes_of (e : element) : list element :=
  match e with
  | Elem _ _ ch =>
      e :: (fix go (l : list value) : list element :=
              match l with
              | [] => []
              | x :: r => nodes x ++ go r
              end) ch
  end.

Definition is_mask_definition (e : element) : bool :=
  match el_type e with
  | Mask => true
  | _ => false
  end.

Definition is_svg_component (t : component) : bool :=
  match t with
  | Svg | Mask | ForeignObject => true
  | _ => false
  end.

(** A vector node whose [mask] prop refers to a mask definition. *)
Definition is_mask_consumer (e : element) : bool :=
  is_svg_component (el_type e) &&
  match el_props e !! "mask" with
  | Some _ => true
  | None => false
  end.

Definition mask_definitions (v : value) : list element :=
  List.filter is_mask_definition (nodes v).

Definition mask_consumers (v : value) : list element :=
  List.filter is_mask_consumer (nodes v).

(** The ids that the mask definitions of a tree declare. *)
Definition mask_ids (v : value) : list value :=
  omap (λ e, el_props e !! "id") (mask_definitions v).

(** The output [e] is a canvas with one mask definition that declares [id]
    and one consumer that refers to that very [id]. *)
Definition own_mask_reference (e : element) (id : string) : Prop :=
  ∃ canvas definition consumer,
    el_children e = [VElem canvas] ∧
    el_children canvas = [VElem definition; VElem consumer] ∧
    el_type definition = Mask ∧
    el_props definition !! "id" = Some (VStr id) ∧
    el_props consumer !! "mask" = Some (VStr (url_ref id)).

(** Two sibling outputs whose mask definitions share no id. *)
Definition sibling_mask_ids_distinct (e1 e2 : element) : Prop :=
  ∀ i1 i2,
    i1 ∈ mask_ids (VElem e1) → i2 ∈ mask_ids (VElem e2) → i1 ≠ i2.

(** The props that are neither [maskElement] nor [children]. *)
Definition passthrough (p : gmap string value) : gmap string value :=
  delete "children" (delete "maskElement" p).

(** Every passthrough prop sits on the root with the value it was given. *)
Definition passthrough_unmodified (p : gmap string value) (e : element)
    : Prop :=
  ∀ k v, passthrough p !! k = Some v → el_props e !! k = Some v.

(** Nesting depth of a value along the first entries of arrays. *)
Fixpoint head_depth (v : value) : nat :=
  match v with
  | VArr (x :: _) => S (head_depth x)
  | _ => 0%nat
  end.

Definition has_valid_mask (p : gmap string value) : bool :=
  React.isValidElement (get p "maskElement").

(** ** The three output shapes *)

Inductive shape := Unmasked | NativeMasked | VectorMasked.

(** The decision function as the specification words it: validity first,
    then availability of the native primitive. *)
Definition decide_shape (maskElementValidity nativePrimitiveAvailable : bool)
    : shape :=
  if negb maskElementValidity then Unmasked
  else if nativePrimitiveAvailable then NativeMasked
  else VectorMasked.

(** A plain container with the passthrough props around the children. *)
Definition unmasked_shape (p : gmap string value) (e : element) : Prop :=
  el_type e = View ∧
  el_props e = passthrough p ∧
  el_children e = [get p "children"].

(** The native container with the passthrough props around the overlay that
    holds the mask and then the children. *)
Definition native_masked_shape (native : option component)
    (p : gmap string value) (e : element) : Prop :=
  native = Some (el_type e) ∧
  el_props e = passthrough p ∧
  ∃ overlay,
    el_children e = [VElem overlay; get p "children"] ∧
    el_children overlay = [get p "maskElement"].

(** A container around a vector canvas that holds a mask definition made of
    the mask and a consumer of that definition around the children. *)
Definition vector_masked_shape (p : gmap string value) (e : element) : Prop :=
  el_type e = View ∧
  (∃ sizing,
     el_props e =
       <["style" := VArr [get (passthrough p) "style"; sizing]]>
         (passthrough p)) ∧
  ∃ canvas definition inner consumer id,
    el_children e = [VElem canvas] ∧
    el_type canvas = Svg ∧
    el_children canvas = [VElem definition; VElem consumer] ∧
    el_type definition = Mask ∧
    el_props definition !! "id" = Some (VStr id) ∧
    el_children definition = [VElem inner] ∧
    el_type inner = ForeignObject ∧
    el_children inner = [get p "maskElement"] ∧
    el_type consumer = ForeignObject ∧
    el_props consumer !! "mask" = Some (VStr (url_ref id)) ∧
    el_children consumer = [get p "children"].

Definition has_shape (native : option component) (sh : shape)
    (p : gmap string value) (e : element) : Prop :=
  match sh with
  | Unmasked => unmasked_shape p e
  | NativeMasked => native_masked_shape native p e
  | VectorMasked => vector_masked_shape p e
  end.

(** ** The SVG composition *)

(** The nodes of the SVG path, as the last [return] builds them from the
    passthrough props, the mask and the children. *)
Definition mask_source_node (maskElement : value) : element :=
  Elem ForeignObject
    (obj [("style",
           VObj (obj [("flex", VNum 1); ("width", VStr "100%");
                      ("height", VStr "100%")]))])
    [maskElement].

Definition mask_definition_node (maskElement : value) : element :=
  Elem Mask
    (obj [("id", VStr "mask");
          ("style",
           VObj (obj [("flex", VNum 1); ("width", VStr "100%");
                      ("height", VStr "100%")]))])
    [VElem (mask_source_node maskElement)].

Definition mask_consumer_node (children : value) : element :=
  Elem ForeignObject
    (obj [("mask", VStr "url(#mask)");
          ("style",
           VObj (obj [("flex", VNum 1); ("width", VStr "100%");
                      ("height", VStr "100%");
                      ("backgroundColor", VStr "red");
                      ("overflowY", VStr "auto")]))])
    [children].

Definition svg_canvas (maskElement children : value) : element :=
  Elem Svg
    (obj [("style",
           VObj (obj [("flex", VNum 1); ("width", VStr "100%");
                      ("backgroundColor", VStr "blue")]))])
    [VElem (mask_definition_node maskElement);
     VElem (mask_consumer_node children)].

Definition svg_composition (rest : gmap string value)
    (maskElement children : value) : element :=
  Elem View
    (<["style" :=
         VArr [get rest "style";
               VObj (obj [("flex", VNum 1); ("width", VStr "100%");
                          ("backgroundColor", VStr "red")])]]> rest)
    [VElem (svg_canvas maskElement children)].

(** ** Concrete props and platforms *)

(** The mask and the content of the example in the component's
    documentation, and props objects built from them. *)
Definition basic_mask : value :=
  VElem (Elem (UserComponent "Text") ∅ [VStr "Basic Mask"]).

Definition blue_view : value :=
  VElem (Elem View
    (obj [("style",
           VObj (obj [("flex", VNum 1); ("backgroundColor", VStr "blue")]))])
    []).

Definition masked_props : gmap string value :=
  obj [("maskElement", basic_mask); ("children", blue_view);
       ("style", VObj (obj [("backgroundColor", VStr "green")]));
       ("testID", VStr "masked")].

Definition sibling_props : gmap string value :=
  obj [("maskElement", basic_mask); ("children", VStr "sibling")].

Definition null_mask_props : gmap string value :=
  obj [("maskElement", VNull); ("children", blue_view);
       ("testID", VStr "masked")].

Definition childless_props : gmap string value :=
  obj [("maskElement", basic_mask)].

(** A platform with the native primitive and one without. *)
Definition native_platform : option (string → component) :=
  Some NativeComponent.
Definition web_platform : option (string → component) := None.

(** ** The module *)

Definition invalid_mask_message : string :=
  "MaskedView: Invalid `maskElement` prop was passed to MaskedView. " +:+
  "Expected a React Element. No mask will render.".

Section MaskedView.

(** [requireNativeComponent] as imported from [react-native]: absent on
    platforms without it. *)
Variable requireNativeComponent : option (string → component).

Definition RNCMaskedView : option component :=
  match requireNativeComponent with
  | Some require => Some (require "RNCMaskedView")
  | None => None
  end.

Definition render : M element :=
  p ← read_props;
  let maskElement := get p "maskElement" in
  let children := get p "children" in
  let otherViewProps := delete "children" (delete "maskElement" p) in
  if negb (React.isValidElement maskElement) then
    warned ← read_hasWarned;
    when (negb warned)
      (console_error invalid_mask_message ;; write_hasWarned true) ;;
    mret (jsx View otherViewProps [children])
  else
    match RNCMaskedView with
    | Some RNCMaskedView =>
        mret (jsx RNCMaskedView otherViewProps
          [VElem (jsx View
             (obj [("pointerEvents", VStr "none");
                   ("style", StyleSheet.absoluteFill)])
             [maskElement]);
           children])
    | None =>
        mret (jsx View
          (<["style" :=
               VArr [get otherViewProps "style";
                     VObj (obj [("flex", VNum 1); ("width", VStr "100%");
                                ("backgroundColor", VStr "red")])]]>
             otherViewProps)
          [VElem (jsx Svg
             (obj [("style",
                    VObj (obj [("flex", VNum 1); ("width", VStr "100%");
                               ("backgroundColor", VStr "blue")]))])
             [VElem (jsx Mask
                (obj [("id", VStr "mask");
                      ("style",
                       VObj (obj [("flex", VNum 1); ("width", VStr "100%");
                                  ("height", VStr "100%")]))])
                [VElem (jsx ForeignObject
                   (obj [("style",
                          VObj (obj [("flex", VNum 1);
                                     ("width", VStr "100%");
                                     ("height", VStr "100%")]))])
                   [maskElement])]);
              VElem (jsx ForeignObject
                (obj [("mask", VStr "url(#mask)");
                      ("style",
                       VObj (obj [("flex", VNum 1); ("width", VStr "100%");
                                  ("height", VStr "100%");
                                  ("backgroundColor", VStr "red");
                                  ("overflowY", VStr "auto")]))])
                [children])])])
    end.

(** The class field initialiser: a new instance has not warned yet. *)
Definition construct (p : gmap string value) : instance :=
  Instance p false.

(** React stores the new props on the instance before it calls [render]
    again; nothing else of the instance is touched. *)
Definition receive_props (p : gmap string value) : M unit :=
  λ s, (tt, State (Instance p (_hasWarnedInvalidRenderMask (this s)))
                  (console s)).

Definition render_with (p : gmap string value) : M element :=
  receive_props p ;; render.

(** Successive renders of one instance, one per props object. *)
Fixpoint renders (ps : list (gmap string value)) : M (list element) :=
  match ps with
  | [] => mret []
  | p :: ps' =>
      e ← render_with p;
      es ← renders ps';
      mret (e :: es)
  end.

(** The state an instance is in when it is mounted with an empty console. *)
Definition mounted (p : gmap string value) : state :=
  State (construct p) [].

(** Whether the module found the native primitive when it was loaded. *)
Definition nativePrimitiveAvailable : bool :=
  match RNCMaskedView with
  | Some _ => true
  | None => false
  end.

(** ** Values are finite *)

Lemma head_depth_cycle (v : value) (l : list value) : v ≠ VArr (v :: l).
Proof.
  intros H. apply (f_equal head_depth) in H. cbn in H. lia.
Qed.

(** Wrapping the [style] prop into an array changes the props, whatever
    the style was. *)
Lemma insert_style_array_neq (rest : gmap string value) (o : value) :
  <["style" := VArr [get rest "style"; o]]> rest ≠ rest.
Proof.
  intros H.
  apply (f_equal (λ m : gmap string value, m !! "style")) in H.
  rewrite lookup_insert_eq in H.
  unfold get in H. rewrite <- H in H. cbn in H.
  injection H as H. symmetry in H. by apply head_depth_cycle in H.
Qed.

(** ** What one call of [render] computes *)

Ltac run_render :=
  unfold render, render_with, receive_props, read_props, read_hasWarned,
    write_hasWarned, console_error, when, mbind, M_bind, mret, M_ret;
  cbn [this props console _hasWarnedInvalidRenderMask].

Lemma render_invalid (s : state) :
  React.isValidElement (get (props (this s)) "maskElement") = false →
  render s =
    (Elem View (passthrough (props (this s)))
       [get (props (this s)) "children"],
     if _hasWarnedInvalidRenderMask (this s) then s
     else State (Instance (props (this s)) true)
                (console s ++ [invalid_mask_message])).
Proof.
  destruct s as [[p w] c]. run_render. intros ->.
  destruct w; reflexivity.
Qed.

Lemma render_native (s : state) (C : component) :
  React.isValidElement (get (props (this s)) "maskElement") = true →
  RNCMaskedView = Some C →
  render s =
    (Elem C (passthrough (props (this s)))
       [VElem (Elem View
          (obj [("pointerEvents", VStr "none");
                ("style", StyleSheet.absoluteFill)])
          [get (props (this s)) "maskElement"]);
        get (props (this s)) "children"],
     s).
Proof.
  destruct s as [[p w] c]. run_render. intros -> ->. reflexivity.
Qed.

Lemma render_vector (s : state) :
  React.isValidElement (get (props (this s)) "maskElement") = true →
  RNCMaskedView = None →
  render s =
    (svg_composition (passthrough (props (this s)))
       (get (props (this s)) "maskElement")
       (get (props (this s)) "children"),
     s).
Proof.
  destruct s as [[p w] c]. run_render. intros -> ->. reflexivity.
Qed.

(** A call with a valid mask has no effect at all. *)
Lemma render_valid_state (s : state) :
  React.isValidElement (get (props (this s)) "maskElement") = true →
  (render s).2 = s.
Proof.
  intros Hv. destruct RNCMaskedView as [C|] eqn:HC.
  - by rewrite (render_native s C Hv HC).
  - by rewrite (render_vector s Hv HC).
Qed.

(** ** The decision *)

(** No output tree has two of the three shapes for the same props. *)
Lemma has_shape_functional (native : option component) (sh sh' : shape)
    (p : gmap string value) (e : element) :
  has_shape native sh p e → has_shape native sh' p e → sh = sh'.
Proof.
  destruct sh, sh'; cbn; try done.
  - intros (_ & _ & Hc) (_ & _ & o & Hc' & _). congruence.
  - intros (_ & Hp & _) (_ & (z & Hp') & _).
    rewrite Hp in Hp'. symmetry in Hp'.
    by apply insert_style_array_neq in Hp'.
  - intros (_ & _ & o & Hc' & _) (_ & _ & Hc). congruence.
  - intros (_ & _ & o & Hc & _) (_ & _ & c & d & i & k & id & Hc' & _).
    congruence.
  - intros (_ & (z & Hp') & _) (_ & Hp & _).
    rewrite Hp in Hp'. symmetry in Hp'.
    by apply insert_style_array_neq in Hp'.
  - intros (_ & _ & c & d & i & k & id & Hc' & _) (_ & _ & o & Hc & _).
    congruence.
Qed.

Lemma render_has_decided_shape (s : state) :
  has_shape RNCMaskedView
    (decide_shape
       (React.isValidElement (get (props (this s)) "maskElement"))
       nativePrimitiveAvailable)
    (props (this s)) (render s).1.
Proof.
  unfold nativePrimitiveAvailable.
  destruct (React.isValidElement (get (props (this s)) "maskElement"))
    eqn:Hv.
  - destruct RNCMaskedView as [C|] eqn:HC.
    + rewrite (render_native s C Hv HC). cbn.
      split_and!; [done | done |]. eexists. split; reflexivity.
    + rewrite (render_vector s Hv HC). cbn.
      split_and!; [done | by eexists |].
      do 4 eexists. exists "mask". split_and!; reflexivity.
  - rewrite (render_invalid s Hv). cbn. done.
Qed.

(** C1: whatever the props, the output of [render] has exactly one of the
    three shapes, the one that the decision function picks from the validity
    of [maskElement] and the availability of the native primitive: invalid
    gives Unmasked, else available gives NativeMasked, else VectorMasked. *)
Theorem render_shape_is_decided (s : state) (sh : shape) :
  has_shape RNCMaskedView sh (props (this s)) (render s).1 ↔
  sh = decide_shape
         (React.isValidElement (get (props (this s)) "maskElement"))
         nativePrimitiveAvailable.
Proof.
  split.
  - intros H. eapply has_shape_functional; [exact H |].
    apply render_has_decided_shape.
  - intros ->. apply render_has_decided_shape.
Qed.

(** ** The degraded rendering *)

(** What [React.isValidElement] rejects: a missing prop, [undefined], [null],
    booleans, numbers, strings, arrays and plain objects. *)
Lemma invalid_mask_values (p : gmap string value) :
  p !! "maskElement" = None ∨
  (∃ v, p !! "maskElement" = Some v ∧
        match v with VElem _ => False | _ => True end) →
  React.isValidElement (get p "maskElement") = false.
Proof.
  unfold get. intros [-> | (v & -> & Hv)]; [done |]. by destruct v.
Qed.

(** The nodes of a container are the container and the nodes of its slots. *)
Lemma nodes_of_children (t : component) (a : gmap string value)
    (ch : list value) :
  nodes_of (Elem t a ch) = Elem t a ch :: flat_map nodes ch.
Proof.
  reflexivity.
Qed.

Lemma nodes_elem (e : element) :
  nodes (VElem e) = e :: flat_map nodes (el_children e).
Proof. by destruct e. Qed.

(** C2: with an invalid [maskElement] the call returns (it does not throw)
    a plain [View] that carries the passthrough props and wraps the children
    directly: the container is the only node it adds, no mask definition. *)
Theorem render_invalid_mask_passthrough (s : state) :
  React.isValidElement (get (props (this s)) "maskElement") = false →
  ∃ e s',
    render s = (e, s') ∧
    el_type e = View ∧
    el_props e = passthrough (props (this s)) ∧
    el_children e = [get (props (this s)) "children"] ∧
    nodes (VElem e) = e :: nodes (get (props (this s)) "children") ∧
    mask_definitions (VElem e) =
      mask_definitions (get (props (this s)) "children").
Proof.
  intros Hv. do 2 eexists. split; [apply (render_invalid s Hv) |].
  split_and!; try reflexivity;
    unfold mask_definitions; cbn [nodes]; rewrite nodes_of_children;
    cbn; by rewrite app_nil_r.
Qed.

(** ** The warning flag over the life of an instance *)

Lemma render_with_eq (p : gmap string value) (s : state) :
  render_with p s =
    render (State (Instance p (_hasWarnedInvalidRenderMask (this s)))
                  (console s)).
Proof. reflexivity. Qed.

Lemma render_with_valid (p : gmap string value) (s : state) :
  has_valid_mask p = true →
  (render_with p s).2 =
    State (Instance p (_hasWarnedInvalidRenderMask (this s))) (console s).
Proof.
  intros Hv. rewrite render_with_eq. by apply render_valid_state.
Qed.

Lemma render_with_invalid (p : gmap string value) (s : state) :
  has_valid_mask p = false →
  (render_with p s).2 =
    State (Instance p true)
      (if _hasWarnedInvalidRenderMask (this s) then console s
       else console s ++ [invalid_mask_message]).
Proof.
  intros Hv. rewrite render_with_eq, render_invalid by exact Hv.
  cbn. by destruct (_hasWarnedInvalidRenderMask (this s)).
Qed.

Lemma renders_cons (p : gmap string value) (ps : list (gmap string value))
    (s : state) :
  (renders (p :: ps) s).2 = (renders ps (render_with p s).2).2.
Proof.
  cbn [renders]. unfold mbind, M_bind at 1.
  destruct (render_with p s) as [e s1]. cbn.
  unfold M_bind. by destruct (renders ps s1).
Qed.

Lemma renders_app (ps qs : list (gmap string value)) (s : state) :
  (renders (ps ++ qs) s).2 = (renders qs (renders ps s).2).2.
Proof.
  revert s. induction ps as [|p ps IH]; intros s; [done |].
  rewrite <- app_comm_cons, !renders_cons. apply IH.
Qed.

(** Renders with a valid mask touch neither the flag nor the console. *)
Lemma renders_valid (ps : list (gmap string value)) (s : state) :
  Forall (λ p, has_valid_mask p = true) ps →
  console (renders ps s).2 = console s ∧
  _hasWarnedInvalidRenderMask (this (renders ps s).2) =
    _hasWarnedInvalidRenderMask (this s).
Proof.
  intros Hall. revert s.
  induction Hall as [|p ps Hp _ IH]; intros s; [done |].
  rewrite renders_cons. destruct (IH (render_with p s).2) as [-> ->].
  by rewrite (render_with_valid p s Hp).
Qed.

(** Once the flag is set, no render writes to the console or clears it. *)
Lemma render_with_warned (p : gmap string value) (s : state) :
  _hasWarnedInvalidRenderMask (this s) = true →
  console (render_with p s).2 = console s ∧
  _hasWarnedInvalidRenderMask (this (render_with p s).2) = true.
Proof.
  intros Hw. destruct (has_valid_mask p) eqn:Hv.
  - by rewrite (render_with_valid p s Hv).
  - rewrite (render_with_invalid p s Hv), Hw. done.
Qed.

Lemma renders_warned (ps : list (gmap string value)) (s : state) :
  _hasWarnedInvalidRenderMask (this s) = true →
  console (renders ps s).2 = console s ∧
  _hasWarnedInvalidRenderMask (this (renders ps s).2) = true.
Proof.
  revert s. induction ps as [|p ps IH]; intros s Hw; [done |].
  rewrite renders_cons.
  destruct (render_with_warned p s Hw) as [Hc Hf].
  destruct (IH _ Hf) as [-> ->]. done.
Qed.

(** Over any sequence of renders an instance writes at most one line. *)
Lemma renders_at_most_one (ps : list (gmap string value)) (s : state) :
  ∃ l, console (renders ps s).2 = console s ++ l ∧
       (length l ≤ if _hasWarnedInvalidRenderMask (this s) then 0 else 1)%nat.
Proof.
  revert s. induction ps as [|p ps IH]; intros s.
  - exists []. rewrite app_nil_r. split; [done |]. cbn.
    destruct (_hasWarnedInvalidRenderMask (this s)); lia.
  - rewrite renders_cons. destruct (has_valid_mask p) eqn:Hv.
    + destruct (IH (render_with p s).2) as (l & -> & Hl).
      rewrite (render_with_valid p s Hv) in *. by exists l.
    + destruct (renders_warned ps (render_with p s).2) as [-> _].
      { by rewrite (render_with_invalid p s Hv). }
      rewrite (render_with_invalid p s Hv). cbn.
      destruct (_hasWarnedInvalidRenderMask (this s)).
      * exists []. rewrite app_nil_r. split; [done | cbn; lia].
      * exists [invalid_mask_message]. split; [done | cbn; lia].
Qed.

(** C3: on an instance that has just been constructed, the first render
    with an invalid [maskElement] writes exactly one diagnostic and sets the
    flag; the renders before it wrote none and no render after it, with an
    invalid mask or not, writes another. *)
Theorem invalid_mask_warns_once (p0 : gmap string value) (c0 : list string)
    (pre post : list (gmap string value)) (p : gmap string value) :
  Forall (λ q, has_valid_mask q = true) pre →
  has_valid_mask p = false →
  let s1 := (renders pre (State (construct p0) c0)).2 in
  let s2 := (render_with p s1).2 in
  let s3 := (renders post s2).2 in
  console s1 = c0 ∧
  console s2 = c0 ++ [invalid_mask_message] ∧
  _hasWarnedInvalidRenderMask (this s2) = true ∧
  console s3 = console s2 ∧
  (renders (pre ++ p :: post) (State (construct p0) c0)).2 = s3.
Proof.
  intros Hpre Hp s1 s2 s3.
  destruct (renders_valid pre (State (construct p0) c0) Hpre) as [Hc Hf].
  fold s1 in Hc, Hf. cbn in Hc, Hf.
  assert (Hs2 : s2 = State (Instance p true) (c0 ++ [invalid_mask_message])).
  { unfold s2. rewrite (render_with_invalid p s1 Hp), Hf, Hc. done. }
  split_and!.
  - exact Hc.
  - by rewrite Hs2.
  - by rewrite Hs2.
  - apply renders_warned. by rewrite Hs2.
  - by rewrite renders_app, renders_cons.
Qed.

(** C7: once a render of the instance has seen an invalid [maskElement], a
    later render with a valid one produces a masked shape, not the degraded
    one, and writes no diagnostic. *)
Theorem valid_mask_after_invalid (p0 : gmap string value) (c0 : list string)
    (pre mid : list (gmap string value)) (p_bad p_ok : gmap string value) :
  has_valid_mask p_bad = false →
  has_valid_mask p_ok = true →
  let s1 := (renders (pre ++ p_bad :: mid) (State (construct p0) c0)).2 in
  let r := render_with p_ok s1 in
  let sh := decide_shape true nativePrimitiveAvailable in
  (sh = NativeMasked ∨ sh = VectorMasked) ∧
  has_shape RNCMaskedView sh p_ok r.1 ∧
  ¬ unmasked_shape p_ok r.1 ∧
  console r.2 = console s1 ∧
  _hasWarnedInvalidRenderMask (this r.2) = true.
Proof.
  intros Hbad Hok s1 r sh.
  assert (Hsh : has_shape RNCMaskedView sh p_ok r.1).
  { unfold r, sh. rewrite render_with_eq.
    pose proof (render_has_decided_shape
      (State (Instance p_ok (_hasWarnedInvalidRenderMask (this s1)))
             (console s1))) as H.
    cbn [this props] in H. fold (has_valid_mask p_ok) in H.
    by rewrite Hok in H. }
  assert (Hw : _hasWarnedInvalidRenderMask (this s1) = true).
  { unfold s1. rewrite renders_app, renders_cons.
    apply renders_warned. by rewrite (render_with_invalid p_bad _ Hbad). }
  split_and!.
  - unfold sh, decide_shape. cbn. destruct nativePrimitiveAvailable; auto.
  - exact Hsh.
  - intros Hu.
    pose proof (has_shape_functional RNCMaskedView Unmasked sh p_ok r.1
                  Hu Hsh) as Heq.
    unfold sh, decide_shape in Heq. cbn in Heq.
    by destruct nativePrimitiveAvailable.
  - unfold r. by rewrite (render_with_valid p_ok s1 Hok).
  - unfold r. by rewrite (render_with_valid p_ok s1 Hok).
Qed.

(** C10: the flag starts false; a render with a valid [maskElement] leaves
    the whole state as it was; [render] never changes the props of the
    instance, so the flag is all it mutates; and neither [render], nor new
    props, nor any sequence of renders clears a flag that is set. *)
Theorem hasWarned_flag_monotone :
  (∀ p, _hasWarnedInvalidRenderMask (construct p) = false) ∧
  (∀ s, has_valid_mask (props (this s)) = true → (render s).2 = s) ∧
  (∀ s, props (this (render s).2) = props (this s)) ∧
  (∀ s, _hasWarnedInvalidRenderMask (this s) = true →
        _hasWarnedInvalidRenderMask (this (render s).2) = true) ∧
  (∀ p s, _hasWarnedInvalidRenderMask (this (receive_props p s).2) =
          _hasWarnedInvalidRenderMask (this s)) ∧
  (∀ ps s, _hasWarnedInvalidRenderMask (this s) = true →
           _hasWarnedInvalidRenderMask (this (renders ps s).2) = true).
Proof.
  split_and!.
  - done.
  - intros s Hv. by apply render_valid_state.
  - intros s. destruct (has_valid_mask (props (this s))) eqn:Hv.
    + by rewrite (render_valid_state s Hv).
    + rewrite (render_invalid s Hv). cbn.
      by destruct (_hasWarnedInvalidRenderMask (this s)).
  - intros s Hw. destruct (has_valid_mask (props (this s))) eqn:Hv.
    + by rewrite (render_valid_state s Hv).
    + rewrite (render_invalid s Hv). cbn. by rewrite Hw.
  - done.
  - intros ps s Hw. by apply renders_warned.
Qed.

(** ** The native path *)

(** C4: with a valid [maskElement] and the native primitive at hand, the
    output is the native container with the passthrough props and exactly
    two child slots: first a [View] overlay that takes no pointer events,
    is laid out absolutely over the whole container and holds the mask,
    then the children. *)
Theorem render_native_mask_container (s : state) (C : component) :
  has_valid_mask (props (this s)) = true →
  RNCMaskedView = Some C →
  ∃ overlay,
    render s =
      (Elem C (passthrough (props (this s)))
         [VElem overlay; get (props (this s)) "children"],
       s) ∧
    el_type overlay = View ∧
    non_interactive overlay ∧
    covers_container overlay ∧
    el_children overlay = [get (props (this s)) "maskElement"].
Proof.
  intros Hv HC. eexists. split; [apply (render_native s C Hv HC) |].
  split_and!; try reflexivity. by repeat split.
Qed.

(** ** The vector path *)

Lemma nodes_svg_composition (rest : gmap string value) (m c : value) :
  nodes (VElem (svg_composition rest m c)) =
    svg_composition rest m c :: svg_canvas m c ::
    mask_definition_node m :: mask_source_node m :: nodes m ++
    mask_consumer_node c :: nodes c.
Proof.
  rewrite nodes_elem.
  change (el_children (svg_composition rest m c))
    with [VElem (svg_canvas m c)].
  cbn [flat_map]. rewrite nodes_elem.
  change (el_children (svg_canvas m c))
    with [VElem (mask_definition_node m); VElem (mask_consumer_node c)].
  cbn [flat_map]. rewrite !nodes_elem.
  change (el_children (mask_definition_node m))
    with [VElem (mask_source_node m)].
  cbn [flat_map]. rewrite nodes_elem.
  cbn [el_children mask_source_node mask_consumer_node flat_map].
  by rewrite !app_nil_r.
Qed.

Lemma mask_definitions_svg_composition (rest : gmap string value)
    (m c : value) :
  mask_definitions (VElem (svg_composition rest m c)) =
    mask_definition_node m :: mask_definitions m ++ mask_definitions c.
Proof.
  unfold mask_definitions. rewrite nodes_svg_composition.
  cbn [List.filter is_mask_definition el_type svg_composition svg_canvas
       mask_definition_node mask_source_node].
  by rewrite List.filter_app.
Qed.

Lemma mask_consumers_svg_composition (rest : gmap string value)
    (m c : value) :
  mask_consumers (VElem (svg_composition rest m c)) =
    mask_consumers m ++ mask_consumer_node c :: mask_consumers c.
Proof.
  unfold mask_consumers. rewrite nodes_svg_composition.
  cbn [List.filter is_mask_consumer is_svg_component el_type andb
       svg_composition].
  assert (is_mask_consumer (svg_canvas m c) = false) as -> by done.
  assert (is_mask_consumer (mask_definition_node m) = false) as -> by done.
  assert (is_mask_consumer (mask_source_node m) = false) as -> by done.
  rewrite List.filter_app. cbn [List.filter].
  by assert (is_mask_consumer (mask_consumer_node c) = true) as -> by done.
Qed.

(** C5: with a valid [maskElement] and no native primitive, the output has
    one mask definition of its own, a [Mask] around a [ForeignObject] that
    holds the mask, and one mask consumer of its own, a [ForeignObject] that
    refers to the definition by its id, holds the children and has
    [overflowY: 'auto']; any further definition or consumer in the tree
    lies inside the caller's mask or children. *)
Theorem render_vector_definition_and_consumer (s : state) :
  has_valid_mask (props (this s)) = true →
  RNCMaskedView = None →
  ∃ out definition inner consumer id,
    render s = (out, s) ∧
    mask_definitions (VElem out) =
      definition :: mask_definitions (get (props (this s)) "maskElement") ++
                    mask_definitions (get (props (this s)) "children") ∧
    mask_consumers (VElem out) =
      mask_consumers (get (props (this s)) "maskElement") ++
      consumer :: mask_consumers (get (props (this s)) "children") ∧
    el_type definition = Mask ∧
    el_props definition !! "id" = Some (VStr id) ∧
    el_children definition = [VElem inner] ∧
    el_type inner = ForeignObject ∧
    el_children inner = [get (props (this s)) "maskElement"] ∧
    el_type consumer = ForeignObject ∧
    el_props consumer !! "mask" = Some (VStr (url_ref id)) ∧
    el_children consumer = [get (props (this s)) "children"] ∧
    style_attr consumer "overflowY" = Some (VStr "auto").
Proof.
  intros Hv HC.
  exists (svg_composition (passthrough (props (this s)))
            (get (props (this s)) "maskElement")
            (get (props (this s)) "children")).
  exists (mask_definition_node (get (props (this s)) "maskElement")).
  exists (mask_source_node (get (props (this s)) "maskElement")).
  exists (mask_consumer_node (get (props (this s)) "children")).
  exists "mask".
  split_and!; try reflexivity.
  - apply (render_vector s Hv HC).
  - apply mask_definitions_svg_composition.
  - apply mask_consumers_svg_composition.
Qed.

(** ** Passthrough props *)

(** C6 (amended): a passthrough prop sits on the root of the output with
    the value it was given, in the Unmasked and the NativeMasked shape for
    every prop and in the VectorMasked shape for every prop but [style];
    there the root's [style] is the array of the given style and the
    sizing style [{ flex: 1, width: '100%', backgroundColor: 'red' }]. *)
Theorem passthrough_props_on_root (s : state) (k : string) (v : value) :
  passthrough (props (this s)) !! k = Some v →
  el_props (render s).1 !! k =
    Some (match decide_shape (has_valid_mask (props (this s)))
                  nativePrimitiveAvailable with
          | VectorMasked =>
              if decide (k = "style") then
                VArr [v; VObj (obj [("flex", VNum 1); ("width", VStr "100%");
                                    ("backgroundColor", VStr "red")])]
              else v
          | _ => v
          end).
Proof.
  intros Hk. unfold nativePrimitiveAvailable.
  destruct (has_valid_mask (props (this s))) eqn:Hv.
  - destruct RNCMaskedView as [C|] eqn:HC.
    + by rewrite (render_native s C Hv HC).
    + rewrite (render_vector s Hv HC).
      cbn [fst decide_shape negb svg_composition el_props].
      destruct (decide (k = "style")) as [-> | Hne].
      * rewrite lookup_insert_eq. unfold get. by rewrite Hk.
      * by rewrite lookup_insert_ne.
  - by rewrite (render_invalid s Hv).
Qed.

(** ** Sibling instances *)

(** C8 (amended): when two instances both render a valid [maskElement]
    through the vector path, the consumer of each output refers to the
    definition of its own output by the id that definition declares, and
    that id is the fixed string [mask] in both outputs. *)
Theorem sibling_vector_outputs_share_fixed_id (s1 s2 : state) :
  has_valid_mask (props (this s1)) = true →
  has_valid_mask (props (this s2)) = true →
  RNCMaskedView = None →
  own_mask_reference (render s1).1 "mask" ∧
  own_mask_reference (render s2).1 "mask" ∧
  head (mask_ids (VElem (render s1).1)) = Some (VStr "mask") ∧
  head (mask_ids (VElem (render s2).1)) = Some (VStr "mask").
Proof.
  intros Hv1 Hv2 HC.
  rewrite (render_vector s1 Hv1 HC), (render_vector s2 Hv2 HC).
  cbn [fst]. unfold mask_ids. rewrite !mask_definitions_svg_composition.
  split_and!; try reflexivity.
  - do 3 eexists. split_and!; reflexivity.
  - do 3 eexists. split_and!; reflexivity.
Qed.

(** ** Absent children *)

(** C9: with a valid [maskElement] and no [children] prop, the call returns
    a masked shape whose content slot holds [undefined], which contributes
    no node; with no passthrough props either, the root carries none (but
    for the sizing [style] of the vector path). *)
Theorem render_without_children (s : state) :
  has_valid_mask (props (this s)) = true →
  props (this s) !! "children" = None →
  let sh := decide_shape true nativePrimitiveAvailable in
  ∃ e,
    render s = (e, s) ∧
    (sh = NativeMasked ∨ sh = VectorMasked) ∧
    has_shape RNCMaskedView sh (props (this s)) e ∧
    get (props (this s)) "children" = VUndefined ∧
    nodes (get (props (this s)) "children") = [] ∧
    (passthrough (props (this s)) = ∅ →
     ∀ k, k ≠ "style" → el_props e !! k = None).
Proof.
  intros Hv Hc sh.
  assert (Hu : get (props (this s)) "children" = VUndefined).
  { unfold get. by rewrite Hc. }
  exists (render s).1.
  pose proof (render_has_decided_shape s) as Hsh.
  fold (has_valid_mask (props (this s))) in Hsh. rewrite Hv in Hsh.
  fold sh in Hsh.
  split_and!.
  - pose proof (render_valid_state s Hv) as Hs.
    destruct (render s) as [e s']. cbn in *. by subst.
  - unfold sh, decide_shape. cbn. destruct nativePrimitiveAvailable; auto.
  - exact Hsh.
  - exact Hu.
  - by rewrite Hu.
  - intros He k Hk. destruct RNCMaskedView as [C|] eqn:HC.
    + rewrite (render_native s C Hv HC). cbn. by rewrite He.
    + rewrite (render_vector s Hv HC). cbn [fst svg_composition el_props].
      rewrite lookup_insert_ne by done. by rewrite He.
Qed.

(** ** Further properties of [render] *)

(** What the output is made from: the mask, the children and the other
    props, as the destructuring at the head of [render] reads them. *)
Lemma render_output_from_parts (p p' : gmap string value) (w w' : bool)
    (c c' : list string) :
  get p "maskElement" = get p' "maskElement" →
  get p "children" = get p' "children" →
  passthrough p = passthrough p' →
  (render (State (Instance p w) c)).1 = (render (State (Instance p' w') c')).1.
Proof.
  intros Hm Hc Hr.
  destruct (has_valid_mask p) eqn:Hv.
  - assert (Hv' : has_valid_mask p' = true).
    { unfold has_valid_mask in *. by rewrite <- Hm. }
    destruct RNCMaskedView as [C|] eqn:HC.
    + rewrite (render_native (State (Instance p w) c) C Hv HC).
      rewrite (render_native (State (Instance p' w') c') C Hv' HC).
      cbn. by rewrite Hm, Hc, Hr.
    + rewrite (render_vector (State (Instance p w) c) Hv HC).
      rewrite (render_vector (State (Instance p' w') c') Hv' HC).
      cbn [fst this props]. by rewrite Hm, Hc, Hr.
  - assert (Hv' : has_valid_mask p' = false).
    { unfold has_valid_mask in *. by rewrite <- Hm. }
    rewrite (render_invalid (State (Instance p w) c) Hv).
    rewrite (render_invalid (State (Instance p' w') c') Hv').
    cbn. by rewrite Hc, Hr.
Qed.

(** X1: the tree that [render] returns depends on the props alone, not on
    the warning flag of the instance nor on what the console holds. *)
Theorem render_output_ignores_flag_and_console (p : gmap string value)
    (w w' : bool) (c c' : list string) :
  (render (State (Instance p w) c)).1 = (render (State (Instance p w') c')).1.
Proof. by apply render_output_from_parts. Qed.

(** X2: a second call of [render] on the same instance with the same props
    returns the same tree and changes nothing more: whatever the first call
    did to the flag and the console, the second call finds done. *)
Theorem render_again_is_stable (s : state) :
  render (render s).2 = ((render s).1, (render s).2).
Proof.
  destruct (has_valid_mask (props (this s))) eqn:Hv.
  - pose proof (render_valid_state s Hv) as Hs.
    destruct (render s) as [e s'] eqn:Hr. cbn in *. by subst s'.
  - rewrite (render_invalid s Hv). cbn [fst snd].
    destruct (_hasWarnedInvalidRenderMask (this s)) eqn:Hw.
    + rewrite (render_invalid s Hv), Hw. done.
    + rewrite render_invalid by exact Hv. done.
Qed.



(** X5: over any sequence of renders from any state, the flag ends up set
    exactly when it was set before or some render saw an invalid mask, and
    the console gains the one message exactly when the flag was clear before
    and some render saw an invalid mask; nothing is ever removed from it. *)
Theorem renders_flag_and_console (ps : list (gmap string value))
    (s : state) :
  _hasWarnedInvalidRenderMask (this (renders ps s).2) =
    _hasWarnedInvalidRenderMask (this s) ||
    existsb (λ p, negb (has_valid_mask p)) ps ∧
  console (renders ps s).2 =
    console s ++
    (if negb (_hasWarnedInvalidRenderMask (this s)) &&
        existsb (λ p, negb (has_valid_mask p)) ps
     then [invalid_mask_message] else []).
Proof.
  revert s. induction ps as [|p ps IH]; intros s.
  - cbn. rewrite orb_false_r, andb_false_r, app_nil_r. done.
  - rewrite renders_cons. destruct (IH (render_with p s).2) as [-> ->].
    cbn [existsb]. destruct (has_valid_mask p) eqn:Hv.
    + by rewrite (render_with_valid p s Hv).
    + rewrite (render_with_invalid p s Hv). cbn.
      destruct (_hasWarnedInvalidRenderMask (this s)); cbn.
      * done.
      * by rewrite app_nil_r.
Qed.

(** X6: the flag belongs to the instance. Whatever another instance has
    rendered and written to the shared console, a new instance still writes
    its own message on its first render with an invalid mask. *)
Theorem new_instance_warns_for_itself (pA pB : gmap string value)
    (c0 : list string) (psA : list (gmap string value)) :
  has_valid_mask pB = false →
  console
    (render_with pB
       (State (construct pB)
          (console (renders psA (State (construct pA) c0)).2))).2 =
  console (renders psA (State (construct pA) c0)).2 ++ [invalid_mask_message].
Proof.
  intros Hv. by rewrite (render_with_invalid pB _ Hv).
Qed.

(** X7: no content is lost or repeated. The nodes of the output are, in
    document order, the nodes of the mask (when it is valid) and then the
    nodes of the children, behind and between one, two or five nodes that
    [render] builds, by shape. *)
Theorem render_keeps_every_content_node (s : state) :
  ∃ pre mid,
    nodes (VElem (render s).1) =
      pre ++
      (if has_valid_mask (props (this s))
       then nodes (get (props (this s)) "maskElement") else []) ++
      mid ++ nodes (get (props (this s)) "children") ∧
    length (pre ++ mid) =
      match decide_shape (has_valid_mask (props (this s)))
              nativePrimitiveAvailable with
      | Unmasked => 1
      | NativeMasked => 2
      | VectorMasked => 5
      end%nat.
Proof.
  unfold nativePrimitiveAvailable.
  destruct (has_valid_mask (props (this s))) eqn:Hv.
  - destruct RNCMaskedView as [C|] eqn:HC.
    + rewrite (render_native s C Hv HC). cbn [fst].
      eexists [_; _], []. split; [| reflexivity].
      rewrite nodes_elem. cbn [el_children flat_map].
      rewrite nodes_elem. cbn [el_children flat_map].
      by rewrite !app_nil_r.
    + rewrite (render_vector s Hv HC). cbn [fst].
      eexists [_; _; _; _], [_]. split; [| reflexivity].
      by rewrite nodes_svg_composition.
  - rewrite (render_invalid s Hv). cbn [fst].
    eexists [_], []. split; [| reflexivity].
    rewrite nodes_elem. cbn [el_children flat_map]. by rewrite app_nil_r.
Qed.

(** X8: where [requireNativeComponent] exists and the component it returns
    for [RNCMaskedView] is not a vector node, [render] builds no vector
    node: every [Svg], [Mask] or [ForeignObject] of the output lies in the
    caller's mask or children. *)
Theorem native_render_builds_no_vector_node (s : state)
    (require : string → component) :
  requireNativeComponent = Some require →
  is_svg_component (require "RNCMaskedView") = false →
  List.filter (λ e, is_svg_component (el_type e))
    (nodes (VElem (render s).1)) =
  List.filter (λ e, is_svg_component (el_type e))
    (if has_valid_mask (props (this s))
     then nodes (get (props (this s)) "maskElement") else []) ++
  List.filter (λ e, is_svg_component (el_type e))
    (nodes (get (props (this s)) "children")).
Proof.
  intros Hreq Hsvg.
  assert (HC : RNCMaskedView = Some (require "RNCMaskedView")).
  { unfold RNCMaskedView. by rewrite Hreq. }
  destruct (has_valid_mask (props (this s))) eqn:Hv.
  - rewrite (render_native s _ Hv HC). cbn [fst].
    rewrite nodes_elem. cbn [el_children flat_map].
    rewrite nodes_elem. cbn [el_children flat_map].
    rewrite !app_nil_r. cbn [List.filter el_type]. rewrite Hsvg.
    cbn [is_svg_component]. by rewrite List.filter_app.
  - rewrite (render_invalid s Hv). cbn [fst].
    rewrite nodes_elem. cbn [el_children flat_map].
    by rewrite app_nil_r.
Qed.

Lemma passthrough_lookup (p : gmap string value) (k : string) :
  passthrough p !! k =
    if decide (k = "children" ∨ k = "maskElement") then None else p !! k.
Proof.
  unfold passthrough. case_decide as Hk.
  - destruct Hk as [-> | ->]; [apply lookup_delete_eq |].
    rewrite lookup_delete_ne by done. apply lookup_delete_eq.
  - rewrite !lookup_delete_ne; [done | |]; intros <-; tauto.
Qed.

(** X9: the destructuring undoes the caller's JSX. For props made of other
    props [rest], a mask [m] and children [c], the output is built from
    exactly [rest], [m] and [c]. *)
Theorem render_of_spread_props (rest : gmap string value) (m c : value)
    (w : bool) (con : list string) :
  rest !! "maskElement" = None →
  rest !! "children" = None →
  (render
     (State (Instance (<["maskElement" := m]> (<["children" := c]> rest)) w)
            con)).1 =
    if React.isValidElement m then
      match RNCMaskedView with
      | Some C =>
          Elem C rest
            [VElem (Elem View
               (obj [("pointerEvents", VStr "none");
                     ("style", StyleSheet.absoluteFill)])
               [m]);
             c]
      | None => svg_composition rest m c
      end
    else Elem View rest [c].
Proof.
  intros Hm Hc.
  set (p := <["maskElement" := m]> (<["children" := c]> rest)).
  assert (Gm : get p "maskElement" = m).
  { unfold get, p. by rewrite lookup_insert_eq. }
  assert (Gc : get p "children" = c).
  { unfold get, p. rewrite lookup_insert_ne by done.
    by rewrite lookup_insert_eq. }
  assert (Gr : passthrough p = rest).
  { apply map_eq. intros k. rewrite passthrough_lookup. unfold p.
    case_decide as Hk.
    - destruct Hk as [-> | ->]; done.
    - rewrite !lookup_insert_ne; [done | |]; intros <-; tauto. }
  destruct (React.isValidElement m) eqn:Hv.
  - assert (Hv' : has_valid_mask p = true).
    { unfold has_valid_mask. by rewrite Gm. }
    destruct RNCMaskedView as [C|] eqn:HC.
    + rewrite (render_native (State (Instance p w) con) C Hv' HC).
      cbn. by rewrite Gm, Gc, Gr.
    + rewrite (render_vector (State (Instance p w) con) Hv' HC).
      cbn [fst this props]. by rewrite Gm, Gc, Gr.
  - assert (Hv' : has_valid_mask p = false).
    { unfold has_valid_mask. by rewrite Gm. }
    rewrite (render_invalid (State (Instance p w) con) Hv').
    cbn. by rewrite Gc, Gr.
Qed.

(** X10: a prop that is present with the value [undefined] is rendered as
    if it were absent, for [children] and for [maskElement] alike. *)
Theorem undefined_prop_is_absent_prop (p : gmap string value) (w : bool)
    (c : list string) :
  (render (State (Instance (<["children" := VUndefined]> p) w) c)).1 =
    (render (State (Instance (delete "children" p) w) c)).1 ∧
  (render (State (Instance (<["maskElement" := VUndefined]> p) w) c)).1 =
    (render (State (Instance (delete "maskElement" p) w) c)).1.
Proof.
  split; apply render_output_from_parts; unfold get.
  - by rewrite lookup_insert_ne, lookup_delete_ne.
  - by rewrite lookup_insert_eq, lookup_delete_eq.
  - apply map_eq. intros k. rewrite !passthrough_lookup.
    case_decide as Hk; [done |].
    rewrite lookup_insert_ne, lookup_delete_ne; [done | |]; intros <-; tauto.
  - by rewrite lookup_insert_eq, lookup_delete_eq.
  - by rewrite lookup_insert_ne, lookup_delete_ne.
  - apply map_eq. intros k. rewrite !passthrough_lookup.
    case_decide as Hk; [done |].
    rewrite lookup_insert_ne, lookup_delete_ne; [done | |]; intros <-; tauto.
Qed.

(** X11: the root of every output is a [View], except with a valid mask
    where [requireNativeComponent] exists: there it is the component that
    was required under the name [RNCMaskedView]. *)
Theorem root_component (s : state) :
  el_type (render s).1 =
    match requireNativeComponent with
    | Some require =>
        if has_valid_mask (props (this s)) then require "RNCMaskedView"
        else View
    | None => View
    end.
Proof.
  destruct (has_valid_mask (props (this s))) eqn:Hv.
  - destruct RNCMaskedView as [C|] eqn:HC.
    + rewrite (render_native s C Hv HC). unfold RNCMaskedView in HC.
      destruct requireNativeComponent; by simplify_eq.
    + rewrite (render_vector s Hv HC). unfold RNCMaskedView in HC.
      by destruct requireNativeComponent.
  - rewrite (render_invalid s Hv). by destruct requireNativeComponent.
Qed.

(** X12: on the vector path the ids of the mask definitions in the output
    are the fixed id [mask] and then those of the caller's mask and
    children; so they are free of repeats exactly when the caller's content
    declares no repeated id and none that is [mask]. *)
Theorem vector_output_ids (s : state) :
  has_valid_mask (props (this s)) = true →
  RNCMaskedView = None →
  mask_ids (VElem (render s).1) =
    VStr "mask" ::
    mask_ids (get (props (this s)) "maskElement") ++
    mask_ids (get (props (this s)) "children") ∧
  (NoDup (mask_ids (VElem (render s).1)) ↔
   (VStr "mask" ∉ (mask_ids (get (props (this s)) "maskElement") ++
                   mask_ids (get (props (this s)) "children"))) ∧
   NoDup (mask_ids (get (props (this s)) "maskElement") ++
          mask_ids (get (props (this s)) "children"))).
Proof.
  intros Hv HC. rewrite (render_vector s Hv HC). cbn [fst].
  assert (Hids :
    mask_ids (VElem (svg_composition (passthrough (props (this s)))
                       (get (props (this s)) "maskElement")
                       (get (props (this s)) "children"))) =
    VStr "mask" ::
    mask_ids (get (props (this s)) "maskElement") ++
    mask_ids (get (props (this s)) "children")).
  { unfold mask_ids. rewrite mask_definitions_svg_composition.
    cbn [omap list_omap]. by rewrite omap_app. }
  rewrite Hids. split; [done |]. apply NoDup_cons.
Qed.

Lemma renders_cons_outputs (p : gmap string value)
    (ps : list (gmap string value)) (s : state) :
  (renders (p :: ps) s).1 =
    (render_with p s).1 :: (renders ps (render_with p s).2).1.
Proof.
  cbn [renders]. unfold mbind, M_bind at 1.
  destruct (render_with p s) as [e s1]. cbn.
  unfold M_bind. by destruct (renders ps s1).
Qed.

(** X13: the trees of a sequence of renders do not depend on the history
    of the instance: each one is the tree that a newly mounted instance
    renders from the same props. *)
Theorem renders_outputs_are_history_free (ps : list (gmap string value))
    (s : state) :
  (renders ps s).1 = map (λ p, (render (mounted p)).1) ps.
Proof.
  revert s. induction ps as [|p ps IH]; intros s; [done |].
  rewrite renders_cons_outputs, IH. cbn [map]. f_equal.
  rewrite render_with_eq. by apply render_output_from_parts.
Qed.

End MaskedView.

(** ** Concrete renders *)

Example decide_shape_table :
  decide_shape false true = Unmasked ∧
  decide_shape false false = Unmasked ∧
  decide_shape true true = NativeMasked ∧
  decide_shape true false = VectorMasked.
Proof. repeat split. Qed.

Example render_null_mask_twice :
  console (renders native_platform [null_mask_props; null_mask_props]
             (mounted null_mask_props)).2 = [invalid_mask_message].
Proof. reflexivity. Qed.

Lemma render_invalid_mask_passthrough_witness :
  React.isValidElement (get null_mask_props "maskElement") = false ∧
  ∃ e s',
    render native_platform (mounted null_mask_props) = (e, s') ∧
    el_type e = View ∧
    el_props e = passthrough null_mask_props ∧
    el_children e = [get null_mask_props "children"] ∧
    nodes (VElem e) = e :: nodes (get null_mask_props "children") ∧
    mask_definitions (VElem e) =
      mask_definitions (get null_mask_props "children").
Proof.
  split; [reflexivity |].
  apply (render_invalid_mask_passthrough native_platform
           (mounted null_mask_props)).
  reflexivity.
Defined.

Lemma invalid_mask_warns_once_witness :
  Forall (λ q, has_valid_mask q = true) [masked_props; sibling_props] ∧
  has_valid_mask null_mask_props = false ∧
  let s1 := (renders native_platform [masked_props; sibling_props]
               (State (construct masked_props) [])).2 in
  let s2 := (render_with native_platform null_mask_props s1).2 in
  let s3 := (renders native_platform [null_mask_props; masked_props] s2).2 in
  console s1 = [] ∧
  console s2 = [] ++ [invalid_mask_message] ∧
  _hasWarnedInvalidRenderMask (this s2) = true ∧
  console s3 = console s2 ∧
  (renders native_platform
     ([masked_props; sibling_props] ++
      null_mask_props :: [null_mask_props; masked_props])
     (State (construct masked_props) [])).2 = s3.
Proof.
  split; [repeat constructor |]. split; [reflexivity |].
  apply (invalid_mask_warns_once native_platform masked_props []
           [masked_props; sibling_props] [null_mask_props; masked_props]
           null_mask_props).
  - repeat constructor.
  - reflexivity.
Defined.

Lemma render_native_mask_container_witness :
  has_valid_mask masked_props = true ∧
  RNCMaskedView native_platform = Some (NativeComponent "RNCMaskedView") ∧
  ∃ overlay,
    render native_platform (mounted masked_props) =
      (Elem (NativeComponent "RNCMaskedView") (passthrough masked_props)
         [VElem overlay; get masked_props "children"],
       mounted masked_props) ∧
    el_type overlay = View ∧
    non_interactive overlay ∧
    covers_container overlay ∧
    el_children overlay = [get masked_props "maskElement"].
Proof.
  split; [reflexivity |]. split; [reflexivity |].
  apply (render_native_mask_container native_platform
           (mounted masked_props) (NativeComponent "RNCMaskedView"));
    reflexivity.
Defined.

Lemma render_vector_definition_and_consumer_witness :
  has_valid_mask masked_props = true ∧
  RNCMaskedView web_platform = None ∧
  ∃ out definition inner consumer id,
    render web_platform (mounted masked_props) =
      (out, mounted masked_props) ∧
    mask_definitions (VElem out) =
      definition :: mask_definitions (get masked_props "maskElement") ++
                    mask_definitions (get masked_props "children") ∧
    mask_consumers (VElem out) =
      mask_consumers (get masked_props "maskElement") ++
      consumer :: mask_consumers (get masked_props "children") ∧
    el_type definition = Mask ∧
    el_props definition !! "id" = Some (VStr id) ∧
    el_children definition = [VElem inner] ∧
    el_type inner = ForeignObject ∧
    el_children inner = [get masked_props "maskElement"] ∧
    el_type consumer = ForeignObject ∧
    el_props consumer !! "mask" = Some (VStr (url_ref id)) ∧
    el_children consumer = [get masked_props "children"] ∧
    style_attr consumer "overflowY" = Some (VStr "auto").
Proof.
  split; [reflexivity |]. split; [reflexivity |].
  apply (render_vector_definition_and_consumer web_platform
           (mounted masked_props)); reflexivity.
Defined.

(** C6, as claimed, fails on the vector path: the [style] that the caller
    passed is not the value of [style] on the root. *)
Lemma vector_root_style_is_modified :
  ¬ passthrough_unmodified masked_props
      (render web_platform (mounted masked_props)).1.
Proof.
  intros H.
  specialize (H "style" (VObj (obj [("backgroundColor", VStr "green")]))).
  vm_compute in H. specialize (H eq_refl). discriminate H.
Qed.

Lemma passthrough_props_on_root_witness :
  passthrough masked_props !! "style" =
    Some (VObj (obj [("backgroundColor", VStr "green")])) ∧
  el_props (render web_platform (mounted masked_props)).1 !! "style" =
    Some (VArr [VObj (obj [("backgroundColor", VStr "green")]);
                VObj (obj [("flex", VNum 1); ("width", VStr "100%");
                           ("backgroundColor", VStr "red")])]).
Proof.
  split; [reflexivity |].
  apply (passthrough_props_on_root web_platform (mounted masked_props)
           "style" (VObj (obj [("backgroundColor", VStr "green")]))).
  reflexivity.
Defined.

Lemma valid_mask_after_invalid_witness :
  has_valid_mask null_mask_props = false ∧
  has_valid_mask masked_props = true ∧
  let s1 := (renders web_platform
               ([masked_props] ++ null_mask_props :: [null_mask_props])
               (State (construct masked_props) [])).2 in
  let r := render_with web_platform masked_props s1 in
  let sh := decide_shape true (nativePrimitiveAvailable web_platform) in
  (sh = NativeMasked ∨ sh = VectorMasked) ∧
  has_shape (RNCMaskedView web_platform) sh masked_props r.1 ∧
  ¬ unmasked_shape masked_props r.1 ∧
  console r.2 = console s1 ∧
  _hasWarnedInvalidRenderMask (this r.2) = true.
Proof.
  split; [reflexivity |]. split; [reflexivity |].
  apply (valid_mask_after_invalid web_platform masked_props []
           [masked_props] [null_mask_props] null_mask_props masked_props);
    reflexivity.
Defined.

(** C8, as claimed, fails: two siblings on the vector path declare the same
    mask id. *)
Lemma sibling_mask_ids_collide :
  ¬ sibling_mask_ids_distinct
      (render web_platform (mounted masked_props)).1
      (render web_platform (mounted sibling_props)).1.
Proof.
  intros H. apply (H (VStr "mask") (VStr "mask")).
  - vm_compute. constructor.
  - vm_compute. constructor.
  - reflexivity.
Qed.

Lemma sibling_vector_outputs_share_fixed_id_witness :
  has_valid_mask masked_props = true ∧
  has_valid_mask sibling_props = true ∧
  RNCMaskedView web_platform = None ∧
  own_mask_reference
    (render web_platform (mounted masked_props)).1 "mask" ∧
  own_mask_reference
    (render web_platform (mounted sibling_props)).1 "mask" ∧
  head (mask_ids (VElem (render web_platform (mounted masked_props)).1)) =
    Some (VStr "mask") ∧
  head (mask_ids (VElem (render web_platform (mounted sibling_props)).1)) =
    Some (VStr "mask").
Proof.
  do 3 (split; [reflexivity |]).
  apply (sibling_vector_outputs_share_fixed_id web_platform
           (mounted masked_props) (mounted sibling_props)); reflexivity.
Defined.

Lemma render_without_children_witness :
  has_valid_mask childless_props = true ∧
  childless_props !! "children" = None ∧
  let sh := decide_shape true (nativePrimitiveAvailable native_platform) in
  ∃ e,
    render native_platform (mounted childless_props) =
      (e, mounted childless_props) ∧
    (sh = NativeMasked ∨ sh = VectorMasked) ∧
    has_shape (RNCMaskedView native_platform) sh childless_props e ∧
    get childless_props "children" = VUndefined ∧
    nodes (get childless_props "children") = [] ∧
    (passthrough childless_props = ∅ →
     ∀ k, k ≠ "style" → el_props e !! k = None).
Proof.
  split; [reflexivity |]. split; [reflexivity |].
  apply (render_without_children native_platform (mounted childless_props));
    reflexivity.
Defined.

(** A child that declares the id [mask] itself, on the vector path. *)
Example inner_mask_id_repeats :
  mask_ids
    (VElem (render web_platform
              (mounted (obj [("maskElement", basic_mask);
                             ("children",
                              VElem (Elem Mask (obj [("id", VStr "mask")])
                                       []))]))).1) =
    [VStr "mask"; VStr "mask"].
Proof. reflexivity. Qed.


Lemma new_instance_warns_for_itself_witness :
  has_valid_mask null_mask_props = false ∧
  console
    (render_with native_platform null_mask_props
       (State (construct null_mask_props)
          (console
             (renders native_platform [null_mask_props; masked_props]
                (State (construct null_mask_props) [])).2))).2 =
  console
    (renders native_platform [null_mask_props; masked_props]
       (State (construct null_mask_props) [])).2 ++
  [invalid_mask_message].
Proof.
  split; [reflexivity |].
  apply (new_instance_warns_for_itself native_platform null_mask_props
           null_mask_props [] [null_mask_props; masked_props]).
  reflexivity.
Defined.

Lemma native_render_builds_no_vector_node_witness :
  native_platform = Some NativeComponent ∧
  is_svg_component (NativeComponent "RNCMaskedView") = false ∧
  List.filter (λ e, is_svg_component (el_type e))
    (nodes (VElem (render native_platform (mounted masked_props)).1)) =
  List.filter (λ e, is_svg_component (el_type e))
    (if has_valid_mask (props (this (mounted masked_props)))
     then nodes (get (props (this (mounted masked_props))) "maskElement")
     else []) ++
  List.filter (λ e, is_svg_component (el_type e))
    (nodes (get (props (this (mounted masked_props))) "children")).
Proof.
  split; [reflexivity |]. split; [reflexivity |].
  apply (native_render_builds_no_vector_node native_platform
           (mounted masked_props) NativeComponent); reflexivity.
Defined.

Lemma render_of_spread_props_witness :
  (obj [("testID", VStr "masked")] : gmap string value) !! "maskElement" =
    None ∧
  (obj [("testID", VStr "masked")] : gmap string value) !! "children" =
    None ∧
  (render web_platform
     (State (Instance
               (<["maskElement" := VNull]>
                  (<["children" := blue_view]>
                     (obj [("testID", VStr "masked")]))) false) [])).1 =
    if React.isValidElement VNull then
      match RNCMaskedView web_platform with
      | Some C =>
          Elem C (obj [("testID", VStr "masked")])
            [VElem (Elem View
               (obj [("pointerEvents", VStr "none");
                     ("style", StyleSheet.absoluteFill)])
               [VNull]);
             blue_view]
      | None => svg_composition (obj [("testID", VStr "masked")]) VNull
                  blue_view
      end
    else Elem View (obj [("testID", VStr "masked")]) [blue_view].
Proof.
  split; [reflexivity |]. split; [reflexivity |].
  apply (render_of_spread_props web_platform
           (obj [("testID", VStr "masked")]) VNull blue_view false []);
    reflexivity.
Defined.

Lemma vector_output_ids_witness :
  has_valid_mask masked_props = true ∧
  RNCMaskedView web_platform = None ∧
  mask_ids (VElem (render web_platform (mounted masked_props)).1) =
    VStr "mask" ::
    mask_ids (get (props (this (mounted masked_props))) "maskElement") ++
    mask_ids (get (props (this (mounted masked_props))) "children") ∧
  (NoDup (mask_ids (VElem (render web_platform (mounted masked_props)).1)) ↔
   (VStr "mask" ∉
      (mask_ids (get (props (this (mounted masked_props))) "maskElement") ++
       mask_ids (get (props (this (mounted masked_props))) "children"))) ∧
   NoDup
     (mask_ids (get (props (this (mounted masked_props))) "maskElement") ++
      mask_ids (get (props (this (mounted masked_props))) "children"))).
Proof.
  split; [reflexivity |]. split; [reflexivity |].
  apply (vector_output_ids web_platform (mounted masked_props));
    reflexivity.
Defined.
